(** * vid2play: the [VideoPlayer] component, embedded and verified

    Source: [src/VideoPlayer.tsx].  The component keeps a flat set of React
    state variables, mirrors a native [<video>] element through its ref, and
    drives both from event handlers.

    Modelling choices.
    - A JavaScript [number] is an exact rational ([Q]).  Only finite values
      are modelled ([NaN] and the infinities are left out) and arithmetic is
      exact: IEEE-754 rounding is not part of the model.
    - Every handler receives the already converted value
      [Number(e.target.value)] instead of the event object.
    - The [useState] variables form the record [Session]; the element behind
      [videoRef] is the record [Video.t], absent ([None]) when the ref is
      [null]; an assignment to one of its properties is a plain store and
      [play]/[pause] only flip [paused]: the checks and the asynchronous
      work a browser adds are not part of the component.
    - Handlers are run to completion one after the other, each one reading
      the state left by the previous render, as React does for discrete
      events. *)

From Stdlib Require Import ZArith QArith Qround Qminmax Bool List String Ascii.
From Stdlib Require Import Lia Lqa Decimal DecimalString DecimalPos DecimalZ.
Import ListNotations.

Local Open Scope Q_scope.

(** ** Numbers *)

(** The JavaScript [number] type. *)
Abbreviation number := Q (only parsing).

(** [a < b] on numbers, as a boolean. *)
Definition ltb (a b : number) : bool := negb (Qle_bool b a).

(** [a > b]. *)
Definition gtb (a b : number) : bool := ltb b a.

(** [a === b] on numbers. *)
Definition strictEq (a b : number) : bool := Qeq_bool a b.

(** [!a]: a number is falsy exactly when it is zero. *)
Definition falsy (a : number) : bool := Qeq_bool a 0.

(** [Math.floor]. *)
Definition Math_floor (a : number) : Z := Qfloor a.

(** Rounding towards zero, the quotient used by the remainder operator. *)
Definition truncate (a : number) : Z :=
  if Qle_bool 0 a then Qfloor a else Qceiling a.

(** [a % b]: the remainder takes the sign of the dividend. *)
Definition rem (a b : number) : number :=
  a - b * inject_Z (truncate (a / b)).

(** ** Strings *)

(** [Number.prototype.toString] on an integral value: decimal digits, with a
    leading minus sign for a negative one. *)
Definition toString (z : Z) : string :=
  NilZero.string_of_int (Z.to_int z).

(** [fillLen] characters read cyclically from [padString]; [rest] is what is
    left of the copy being read. *)
Fixpoint filler (fillLen : nat) (padString rest : string) : string :=
  match fillLen with
  | O => EmptyString
  | S k =>
      match rest with
      | String c r => String c (filler k padString r)
      | EmptyString =>
          match padString with
          | String c r => String c (filler k padString r)
          | EmptyString => EmptyString
          end
      end
  end.

(** [String.prototype.padStart]. *)
Definition padStart (str : string) (targetLength : nat) (padString : string)
  : string :=
  if (targetLength <=? String.length str)%nat then str
  else (filler (targetLength - String.length str) padString padString
          ++ str)%string.

(** ** [formatTime] (lines 4-12) *)

Definition formatTime (seconds : number) : string :=
  let m := padStart (toString (Math_floor (seconds / 60))) 2 "0" in
  let s := padStart (toString (Math_floor (rem seconds 60))) 2 "0" in
  (m ++ ":" ++ s)%string.

(** ** The native playback primitive *)

Module Video.
(** The properties of [HTMLVideoElement] the component reads or writes.
    [requestFullscreen] records whether the element exposes that method. *)
Record t := mk {
  paused : bool;
  currentTime : number;
  duration : number;
  volume : number;
  muted : bool;
  playbackRate : number;
  requestFullscreen : bool
}.

Definition play (v : t) : t :=
  mk false (currentTime v) (duration v) (volume v) (muted v)
     (playbackRate v) (requestFullscreen v).

Definition pause (v : t) : t :=
  mk true (currentTime v) (duration v) (volume v) (muted v)
     (playbackRate v) (requestFullscreen v).

Definition set_currentTime (x : number) (v : t) : t :=
  mk (paused v) x (duration v) (volume v) (muted v)
     (playbackRate v) (requestFullscreen v).

Definition set_volume (x : number) (v : t) : t :=
  mk (paused v) (currentTime v) (duration v) x (muted v)
     (playbackRate v) (requestFullscreen v).

Definition set_muted (b : bool) (v : t) : t :=
  mk (paused v) (currentTime v) (duration v) (volume v) b
     (playbackRate v) (requestFullscreen v).

Definition set_playbackRate (x : number) (v : t) : t :=
  mk (paused v) (currentTime v) (duration v) (volume v) (muted v)
     x (requestFullscreen v).
End Video.

Module Document.
(** [exitFullscreen] records whether the document exposes that method;
    [fullscreen] is whether an element is currently shown fullscreen. *)
Record t := mk {
  exitFullscreen : bool;
  fullscreen : bool
}.

Definition set_fullscreen (b : bool) (d : t) : t :=
  mk (exitFullscreen d) b.
End Document.

(** ** Session state: the [useState] variables (lines 16-27) *)

Record Session := mkSession {
  isPlaying : bool;
  currentTime : number;
  duration : number;
  volume : number;
  isMuted : bool;
  isFullscreen : bool;
  darkMode : bool;
  videoFile : option string;
  playbackRate : number;
  hue : number;
  saturation : number;
  brightness : number
}.

Definition initialSession : Session :=
  mkSession false 0 0 1 false false true None 1 0 100 100.

Definition setIsPlaying (b : bool) (s : Session) : Session :=
  mkSession b (currentTime s) (duration s) (volume s) (isMuted s)
    (isFullscreen s) (darkMode s) (videoFile s) (playbackRate s) (hue s)
    (saturation s) (brightness s).

Definition setCurrentTime (x : number) (s : Session) : Session :=
  mkSession (isPlaying s) x (duration s) (volume s) (isMuted s)
    (isFullscreen s) (darkMode s) (videoFile s) (playbackRate s) (hue s)
    (saturation s) (brightness s).

Definition setDuration (x : number) (s : Session) : Session :=
  mkSession (isPlaying s) (currentTime s) x (volume s) (isMuted s)
    (isFullscreen s) (darkMode s) (videoFile s) (playbackRate s) (hue s)
    (saturation s) (brightness s).

Definition setVolume (x : number) (s : Session) : Session :=
  mkSession (isPlaying s) (currentTime s) (duration s) x (isMuted s)
    (isFullscreen s) (darkMode s) (videoFile s) (playbackRate s) (hue s)
    (saturation s) (brightness s).

Definition setIsMuted (b : bool) (s : Session) : Session :=
  mkSession (isPlaying s) (currentTime s) (duration s) (volume s) b
    (isFullscreen s) (darkMode s) (videoFile s) (playbackRate s) (hue s)
    (saturation s) (brightness s).

Definition setIsFullscreen (b : bool) (s : Session) : Session :=
  mkSession (isPlaying s) (currentTime s) (duration s) (volume s) (isMuted s)
    b (darkMode s) (videoFile s) (playbackRate s) (hue s)
    (saturation s) (brightness s).

Definition setDarkMode (f : bool -> bool) (s : Session) : Session :=
  mkSession (isPlaying s) (currentTime s) (duration s) (volume s) (isMuted s)
    (isFullscreen s) (f (darkMode s)) (videoFile s) (playbackRate s) (hue s)
    (saturation s) (brightness s).

Definition setVideoFile (u : string) (s : Session) : Session :=
  mkSession (isPlaying s) (currentTime s) (duration s) (volume s) (isMuted s)
    (isFullscreen s) (darkMode s) (Some u) (playbackRate s) (hue s)
    (saturation s) (brightness s).

Definition setPlaybackRate (x : number) (s : Session) : Session :=
  mkSession (isPlaying s) (currentTime s) (duration s) (volume s) (isMuted s)
    (isFullscreen s) (darkMode s) (videoFile s) x (hue s)
    (saturation s) (brightness s).

Definition setHue (x : number) (s : Session) : Session :=
  mkSession (isPlaying s) (currentTime s) (duration s) (volume s) (isMuted s)
    (isFullscreen s) (darkMode s) (videoFile s) (playbackRate s) x
    (saturation s) (brightness s).

Definition setSaturation (x : number) (s : Session) : Session :=
  mkSession (isPlaying s) (currentTime s) (duration s) (volume s) (isMuted s)
    (isFullscreen s) (darkMode s) (videoFile s) (playbackRate s) (hue s)
    x (brightness s).

Definition setBrightness (x : number) (s : Session) : Session :=
  mkSession (isPlaying s) (currentTime s) (duration s) (volume s) (isMuted s)
    (isFullscreen s) (darkMode s) (videoFile s) (playbackRate s) (hue s)
    (saturation s) x.

(** ** The mounted component: session state, the ref and the document *)

Record Player := mkPlayer {
  state : Session;
  videoRef : option Video.t;
  document : Document.t
}.

(** Apply a batch of state setters. *)
Definition update (f : Session -> Session) (p : Player) : Player :=
  mkPlayer (f (state p)) (videoRef p) (document p).

(** Store the element after a command or a property write. *)
Definition withVideo (v : Video.t) (p : Player) : Player :=
  mkPlayer (state p) (Some v) (document p).

Definition withDocument (d : Document.t) (p : Player) : Player :=
  mkPlayer (state p) (videoRef p) d.

(** ** Event handlers *)

(** [handlePlayPause] (lines 29-39). *)
Definition handlePlayPause (p : Player) : Player :=
  match videoRef p with
  | None => p
  | Some video =>
      if Video.paused video
      then update (setIsPlaying true) (withVideo (Video.play video) p)
      else update (setIsPlaying false) (withVideo (Video.pause video) p)
  end.

(** [handleTimeUpdate] (lines 41-44). *)
Definition handleTimeUpdate (p : Player) : Player :=
  match videoRef p with
  | Some video => update (setCurrentTime (Video.currentTime video)) p
  | None => p
  end.

(** [handleLoadedMetadata] (lines 46-49). *)
Definition handleLoadedMetadata (p : Player) : Player :=
  match videoRef p with
  | Some video => update (setDuration (Video.duration video)) p
  | None => p
  end.

(** [handleSeek] (lines 51-57); [value] is [Number(e.target.value)]. *)
Definition handleSeek (value : number) (p : Player) : Player :=
  match videoRef p with
  | Some video =>
      update (setCurrentTime value)
        (withVideo (Video.set_currentTime value video) p)
  | None => p
  end.

(** [handleVolume] (lines 59-65): only the write to the element is guarded. *)
Definition handleVolume (value : number) (p : Player) : Player :=
  let vol := value in
  let p1 :=
    match videoRef p with
    | Some video => withVideo (Video.set_volume vol video) p
    | None => p
    end in
  update (fun s => setIsMuted (strictEq vol 0) (setVolume vol s)) p1.

(** [handleMute] (lines 67-73). *)
Definition handleMute (p : Player) : Player :=
  match videoRef p with
  | Some video =>
      let m := negb (isMuted (state p)) in
      update (setIsMuted m) (withVideo (Video.set_muted m video) p)
  | None => p
  end.

(** [handleFullscreen] (lines 75-85). *)
Definition handleFullscreen (p : Player) : Player :=
  match videoRef p with
  | None => p
  | Some video =>
      if negb (isFullscreen (state p)) then
        let p1 :=
          if Video.requestFullscreen video
          then withDocument (Document.set_fullscreen true (document p)) p
          else p in
        update (setIsFullscreen true) p1
      else
        let p1 :=
          if Document.exitFullscreen (document p)
          then withDocument (Document.set_fullscreen false (document p)) p
          else p in
        update (setIsFullscreen false) p1
  end.

(** [handleDarkMode] (line 96). *)
Definition handleDarkMode (p : Player) : Player :=
  update (setDarkMode negb) p.

(** [handleSpeedPercent] (lines 98-107). *)
Definition handleSpeedPercent (percent : number) (p : Player) : Player :=
  match videoRef p with
  | None => p
  | Some video =>
      let duration := duration (state p) in
      if falsy duration then p
      else
        let jump := duration * (percent / 100) in
        let newTime := Video.currentTime video + jump in
        let newTime := if ltb newTime 0 then 0 else newTime in
        let newTime := if gtb newTime duration then duration else newTime in
        update (setCurrentTime newTime)
          (withVideo (Video.set_currentTime newTime video) p)
  end.

(** [handlePlaybackRate] (lines 109-113): the state is set first, and only
    the write to the element is guarded. *)
Definition handlePlaybackRate (value : number) (p : Player) : Player :=
  let rate := value in
  let p1 := update (setPlaybackRate rate) p in
  match videoRef p1 with
  | Some video => withVideo (Video.set_playbackRate rate video) p1
  | None => p1
  end.

(** Colour controls (lines 116-118). *)
Definition handleHue (value : number) (p : Player) : Player :=
  update (setHue value) p.

Definition handleSaturation (value : number) (p : Player) : Player :=
  update (setSaturation value) p.

Definition handleBrightness (value : number) (p : Player) : Player :=
  update (setBrightness value) p.

(** The effect on [playbackRate] (lines 121-125). *)
Definition playbackRateEffect (p : Player) : Player :=
  match videoRef p with
  | Some video =>
      withVideo (Video.set_playbackRate (playbackRate (state p)) video) p
  | None => p
  end.

(** The submit handler of the manual jump form (lines 219-226); [val] is the
    result of [parseFloat], [None] when it is [NaN]. *)
Definition handlePercentSubmit (val : option number) (p : Player) : Player :=
  match val with
  | Some v => if negb (strictEq v 0) then handleSpeedPercent v p else p
  | None => p
  end.

(** The reset button of the speed control (line 200). *)
Definition handleResetSpeed (p : Player) : Player :=
  handlePlaybackRate 1 p.

Section Loading.

(** A [File] of the picker and [URL.createObjectURL], both provided by the
    browser. *)
Variable File : Type.
Variable createObjectURL : File -> string.

(** [handleFileChange] (lines 87-94); [files] is [e.target.files]. *)
Definition handleFileChange (files : option (list File)) (p : Player)
  : Player :=
  let file := match files with Some (f :: _) => Some f | _ => None end in
  match file with
  | Some f =>
      update (fun s =>
                setIsPlaying false
                  (setCurrentTime 0 (setVideoFile (createObjectURL f) s)))
             p
  | None => p
  end.

(** *** The events the rendered tree dispatches (lines 127-264) *)

Inductive Event :=
| PlayPause
| TimeUpdate
| LoadedMetadata
| Seek (value : number)
| VolumeChange (value : number)
| Mute
| Fullscreen
| FileChange (files : option (list File))
| DarkMode
| JumpButton (percent : number)
| PercentSubmit (val : option number)
| RateChange (value : number)
| ResetSpeed
| HueChange (value : number)
| SaturationChange (value : number)
| BrightnessChange (value : number).

Definition dispatch (e : Event) (p : Player) : Player :=
  match e with
  | PlayPause => handlePlayPause p
  | TimeUpdate => handleTimeUpdate p
  | LoadedMetadata => handleLoadedMetadata p
  | Seek v => handleSeek v p
  | VolumeChange v => handleVolume v p
  | Mute => handleMute p
  | Fullscreen => handleFullscreen p
  | FileChange fs => handleFileChange fs p
  | DarkMode => handleDarkMode p
  | JumpButton pc => handleSpeedPercent pc p
  | PercentSubmit val => handlePercentSubmit val p
  | RateChange v => handlePlaybackRate v p
  | ResetSpeed => handleResetSpeed p
  | HueChange v => handleHue v p
  | SaturationChange v => handleSaturation v p
  | BrightnessChange v => handleBrightness v p
  end.

(** One event: the handler, then the render it causes, whose effect runs
    when [playbackRate] changed. *)
Definition step (p : Player) (e : Event) : Player :=
  let p' := dispatch e p in
  if Qeq_bool (playbackRate (state p)) (playbackRate (state p'))
  then p' else playbackRateEffect p'.

Definition run (p : Player) (es : list Event) : Player :=
  fold_left step es p.

End Loading.

Arguments PlayPause {File}.
Arguments TimeUpdate {File}.
Arguments LoadedMetadata {File}.
Arguments Seek {File} value.
Arguments VolumeChange {File} value.
Arguments Mute {File}.
Arguments Fullscreen {File}.
Arguments FileChange {File} files.
Arguments DarkMode {File}.
Arguments JumpButton {File} percent.
Arguments PercentSubmit {File} val.
Arguments RateChange {File} value.
Arguments ResetSpeed {File}.
Arguments HueChange {File} value.
Arguments SaturationChange {File} value.
Arguments BrightnessChange {File} value.
Arguments handleFileChange {File} createObjectURL files p.
Arguments dispatch {File} createObjectURL e p.
Arguments step {File} createObjectURL p e.
Arguments run {File} createObjectURL p es.

(** ** Reference notions used by the statements *)

(** [clamp x lo hi]: [x] brought into the interval from [lo] to [hi]. *)
Definition clamp (x lo hi : number) : number := Qmin (Qmax x lo) hi.

(** [lo <= x <= hi]. *)
Definition within (lo hi x : number) : Prop := lo <= x /\ x <= hi.

(** The character of a decimal digit. *)
Definition digit (n : Z) : ascii := ascii_of_nat (48 + Z.to_nat n).

(** A field zero-padded to two digits: a value below ten is its digit after
    one leading zero, any other value is printed as it is. *)
Definition pad2 (n : Z) : string :=
  if (n <? 10)%Z then String "0" (String (digit n) EmptyString)
  else toString n.

(** The mathematical remainder, [a mod b = a - b * floor (a / b)]. *)
Definition Qmod (a b : number) : number :=
  a - b * inject_Z (Qfloor (a / b)).


(** The session invariant on the transport fields. *)
Definition transportInv (s : Session) : Prop :=
  within 0 (duration s) (currentTime s) /\
  within (1 # 4) 2 (playbackRate s).

(** The declared ranges of the three colour controls. *)
Definition filterInv (s : Session) : Prop :=
  within (-180) 180 (hue s) /\
  within 0 200 (saturation s) /\
  within 50 200 (brightness s).

(** What the rendered inputs and the element guarantee about an event that
    reaches the transport handlers in state [p]: a slider delivers a value
    between its [min] and [max] (lines 153-162 and 185-195), a progress
    notification reports a position inside the mirrored duration, and a
    metadata notification a length that covers the mirrored position. *)
Definition transportOk {File : Type} (p : Player) (e : Event File) : Prop :=
  match e with
  | Seek v => within 0 (duration (state p)) v
  | RateChange v => within (1 # 4) 2 v
  | TimeUpdate =>
      match videoRef p with
      | Some video =>
          within 0 (duration (state p)) (Video.currentTime video)
      | None => True
      end
  | LoadedMetadata =>
      match videoRef p with
      | Some video => currentTime (state p) <= Video.duration video
      | None => True
      end
  | _ => True
  end.

(** A colour slider delivers a value between its [min] and [max]
    (lines 248-258). *)
Definition filterOk {File : Type} (e : Event File) : Prop :=
  match e with
  | HueChange v => within (-180) 180 v
  | SaturationChange v => within 0 200 v
  | BrightnessChange v => within 50 200 v
  | _ => True
  end.

(** [ok] holds of every event of [es] in the state it is dispatched in. *)
Fixpoint allowed {File : Type} (createObjectURL : File -> string)
    (ok : Player -> Event File -> Prop) (p : Player) (es : list (Event File))
  : Prop :=
  match es with
  | [] => True
  | e :: es' =>
      ok p e /\ allowed createObjectURL ok (step createObjectURL p e) es'
  end.

(** ** Sample states *)

Definition sampleVideo : Video.t :=
  Video.mk true 5 60 1 false 1 true.

Definition sampleDocument : Document.t := Document.mk true false.

(** Mounted, metadata of a 60 s video loaded, position 5 s. *)
Definition samplePlayer : Player :=
  mkPlayer (mkSession false 5 60 1 false false true (Some "blob:a"%string)
              1 0 100 100)
           (Some sampleVideo) sampleDocument.

(** The component with no element behind its ref. *)
Definition unmountedPlayer : Player :=
  mkPlayer initialSession None sampleDocument.

Definition sampleURL (f : string) : string := ("blob:" ++ f)%string.

(** ** Notions for the mirror between session and element *)

(** The session agrees with the element on every property it mirrors. *)
Definition mirrored (p : Player) : Prop :=
  match videoRef p with
  | Some video =>
      currentTime (state p) = Video.currentTime video /\
      duration (state p) = Video.duration video /\
      volume (state p) = Video.volume video /\
      isMuted (state p) = Video.muted video /\
      playbackRate (state p) = Video.playbackRate video /\
      isPlaying (state p) = negb (Video.paused video)
  | None => True
  end.


(** [!videoFile], the condition under which the file picker is rendered
    (lines 142-147). *)
Definition pickerRendered (s : Session) : bool :=
  match videoFile s with
  | None => true
  | Some u => String.eqb u EmptyString
  end.

(** A file change can only come from a rendered picker. *)
Definition pickerOk {File : Type} (p : Player) (e : Event File) : Prop :=
  match e with
  | FileChange _ => pickerRendered (state p) = true
  | _ => True
  end.


(** ** Arithmetic and string lemmas *)

Lemma ltb_true (a b : number) : ltb a b = true <-> a < b.
Proof.
  unfold ltb. rewrite negb_true_iff, <- not_true_iff_false, Qle_bool_iff.
  split; [apply Qnot_le_lt | apply Qlt_not_le].
Qed.

Lemma ltb_false (a b : number) : ltb a b = false <-> b <= a.
Proof.
  unfold ltb. rewrite negb_false_iff. apply Qle_bool_iff.
Qed.

Lemma falsy_false (a : number) : falsy a = false <-> ~ a == 0.
Proof.
  unfold falsy. rewrite <- not_true_iff_false, Qeq_bool_iff. reflexivity.
Qed.

Lemma strictEq_true (a b : number) : strictEq a b = true <-> a == b.
Proof. apply Qeq_bool_iff. Qed.

Lemma div60_nonneg (s : number) : 0 <= s -> 0 <= s / 60.
Proof.
  intros H. unfold Qdiv. apply Qmult_le_0_compat; [exact H | discriminate].
Qed.

Lemma Qfloor_nonneg (a : number) : 0 <= a -> (0 <= Qfloor a)%Z.
Proof.
  intros H. change 0%Z with (Qfloor 0). apply Qfloor_resp_le. exact H.
Qed.

(** On a non-negative dividend the remainder operator is the mathematical
    remainder. *)
Lemma rem_nonneg_dividend (s : number) : 0 <= s -> rem s 60 = Qmod s 60.
Proof.
  intros H. unfold rem, Qmod, truncate.
  apply div60_nonneg in H. apply Qle_bool_iff in H. rewrite H. reflexivity.
Qed.

Lemma Qmod60_nonneg (s : number) : 0 <= Qmod s 60.
Proof.
  unfold Qmod. pose proof (Qfloor_le (s / 60)) as F.
  assert (s == 60 * (s / 60)) as E by field.
  lra.
Qed.

Lemma toString_digit (n : Z) :
  (0 <= n < 10)%Z -> toString n = String (digit n) EmptyString.
Proof.
  intros [L U]. destruct n as [| q | q]; [reflexivity | | lia].
  do 4 (try destruct q as [q | q |]); try reflexivity; lia.
Qed.

(** A value of at least ten prints with at least two characters. *)
Lemma toString_long (n : Z) :
  (10 <= n)%Z -> (2 <= String.length (toString n))%nat.
Proof.
  intros H. destruct n as [| p | p]; try lia.
  unfold toString; simpl.
  pose proof (Unsigned.of_to p) as E.
  destruct (Pos.to_uint p) as [| u | u | u | u | u | u | u | u | u | u ].
  all: try (destruct u; simpl in * ).
  all: try (injection E; lia); try discriminate; try lia.
Qed.

Lemma padStart_pad2 (n : Z) :
  (0 <= n)%Z -> padStart (toString n) 2 "0" = pad2 n.
Proof.
  intros H. unfold pad2. destruct (Z.ltb_spec n 10) as [L | L].
  - rewrite toString_digit by lia. reflexivity.
  - unfold padStart. pose proof (toString_long n L) as G.
    apply Nat.leb_le in G. rewrite G. reflexivity.
Qed.

(** ** Stepping *)

Lemma state_playbackRateEffect (p : Player) :
  state (playbackRateEffect p) = state p.
Proof. unfold playbackRateEffect. destruct (videoRef p); reflexivity. Qed.

Lemma state_step {File : Type} (createObjectURL : File -> string)
    (p : Player) (e : Event File) :
  state (step createObjectURL p e) = state (dispatch createObjectURL e p).
Proof.
  unfold step.
  destruct (Qeq_bool _ _); [reflexivity | apply state_playbackRateEffect].
Qed.

(** Split on every conditional of the goal. *)
Ltac split_conditionals :=
  repeat match goal with
         | |- context [if ?b then _ else _] => destruct b
         | |- context [match ?o with Some _ => _ | None => _ end] =>
             destruct o
         end.

(** ** [formatTime] *)



(** ** Transport handlers *)

Lemma clamp_cases (x lo hi : number) :
  (hi < Qmax x lo /\ clamp x lo hi == hi) \/
  (Qmax x lo <= hi /\ x < lo /\ clamp x lo hi == lo) \/
  (Qmax x lo <= hi /\ lo <= x /\ clamp x lo hi == x).
Proof.
  unfold clamp.
  destruct (Q.min_spec (Qmax x lo) hi) as [[L E] | [L E]];
    destruct (Q.max_spec x lo) as [[M F] | [M F]].
  - right; left. rewrite E, F. repeat split; [rewrite <- F; lra | lra].
  - right; right. rewrite E, F. repeat split; [rewrite <- F; lra | lra].
  - destruct (Qlt_le_dec hi (Qmax x lo)) as [G | G].
    + left. split; [exact G | exact E].
    + right; left. rewrite E. repeat split; [exact G | exact M | lra].
  - destruct (Qlt_le_dec hi (Qmax x lo)) as [G | G].
    + left. split; [exact G | exact E].
    + right; right. rewrite E. repeat split; [exact G | exact M | lra].
Qed.

(** [clamp] lands in the interval and leaves its points alone. *)
Lemma clamp_within (x lo hi : number) :
  lo <= hi -> within lo hi (clamp x lo hi).
Proof.
  intros H. unfold within.
  destruct (clamp_cases x lo hi) as [[G C] | [[G [L C]] | [G [L C]]]];
    rewrite C; split; try lra; try apply Qle_refl.
  destruct (Q.max_spec x lo) as [[M F] | [M F]]; lra.
Qed.

Lemma clamp_fixes_interval (x lo hi : number) :
  within lo hi x -> clamp x lo hi == x.
Proof.
  intros [A B].
  destruct (clamp_cases x lo hi) as [[G C] | [[G [L C]] | [G [L C]]]];
    rewrite C; try lra.
  destruct (Q.max_spec x lo) as [[M F] | [M F]]; lra.
Qed.



Example jump_back_clamped_to_start :
  currentTime (state (handleSpeedPercent (-10) samplePlayer)) = 0.
Proof. reflexivity. Qed.

Example jump_forward_scenario :
  currentTime
    (state (handleSpeedPercent 10
              (mkPlayer (setDuration 120 (setCurrentTime 10 initialSession))
                 (Some (Video.mk false 10 120 1 false 1 true))
                 sampleDocument)))
  == 22.
Proof. reflexivity. Qed.

(** C4: for every [v] of [0..1], [handleVolume v] leaves the mirrored
    [volume] equal to [v] and [isMuted] equal to [v == 0]: true exactly
    when [v] is zero, false for every positive [v]. *)
Theorem handleVolume_mirrors (v : number) (p : Player) :
  within 0 1 v ->
  volume (state (handleVolume v p)) = v /\
  isMuted (state (handleVolume v p)) = Qeq_bool v 0 /\
  (isMuted (state (handleVolume v p)) = true <-> v == 0) /\
  (0 < v -> isMuted (state (handleVolume v p)) = false).
Proof.
  intros _.
  assert (isMuted (state (handleVolume v p)) = Qeq_bool v 0) as M
    by (unfold handleVolume; destruct (videoRef p); reflexivity).
  split; [| split; [| split]].
  - unfold handleVolume; destruct (videoRef p); reflexivity.
  - exact M.
  - rewrite M. apply Qeq_bool_iff.
  - intros L. rewrite M. apply not_true_iff_false.
    rewrite Qeq_bool_iff. lra.
Qed.

Lemma handleVolume_mirrors_witness :
  volume (state (handleVolume (1 # 2) samplePlayer)) = 1 # 2 /\
  isMuted (state (handleVolume (1 # 2) samplePlayer)) = false /\
  isMuted (state (handleVolume 0 samplePlayer)) = true.
Proof.
  assert (within 0 1 (1 # 2)) as H1 by (unfold within, Qle; simpl; lia).
  assert (within 0 1 0) as H0 by (unfold within, Qle; simpl; lia).
  destruct (handleVolume_mirrors (1 # 2) samplePlayer H1) as [V [_ [_ F]]].
  destruct (handleVolume_mirrors 0 samplePlayer H0) as [_ [_ [T _]]].
  split; [exact V | split].
  - apply F. reflexivity.
  - apply T. reflexivity.
Defined.

(** C6: with the element present, two calls of [handleMute] restore the
    original [isMuted], and neither call changes the stored [volume]. *)
Theorem handleMute_twice (p : Player) (video : Video.t) :
  videoRef p = Some video ->
  isMuted (state (handleMute (handleMute p))) = isMuted (state p) /\
  volume (state (handleMute p)) = volume (state p) /\
  volume (state (handleMute (handleMute p))) = volume (state p).
Proof.
  intros Hv. unfold handleMute. rewrite Hv. cbn.
  rewrite negb_involutive. repeat split.
Qed.

Lemma handleMute_twice_witness :
  isMuted (state (handleMute (handleMute samplePlayer))) = false /\
  volume (state (handleMute samplePlayer)) = 1 /\
  volume (state (handleMute (handleMute samplePlayer))) = 1.
Proof.
  exact (handleMute_twice samplePlayer sampleVideo eq_refl).
Defined.

(** ** Media loading *)

(** C7: whatever the prior [currentTime] and [isPlaying], a file change that
    carries a file replaces the media source by the reference made for that
    file, resets [currentTime] to 0 and sets [isPlaying] to false. *)
Theorem handleFileChange_resets {File : Type}
    (createObjectURL : File -> string) (file : File) (others : list File)
    (p : Player) :
  let p' := handleFileChange createObjectURL (Some (file :: others)) p in
  videoFile (state p') = Some (createObjectURL file) /\
  currentTime (state p') = 0 /\
  isPlaying (state p') = false.
Proof. cbn. repeat split. Qed.

(** Only the metadata notification writes the stored duration. *)
Lemma dispatch_duration {File : Type} (createObjectURL : File -> string)
    (e : Event File) (p : Player) :
  duration (state (dispatch createObjectURL e p)) =
  match e, videoRef p with
  | LoadedMetadata, Some video => Video.duration video
  | _, _ => duration (state p)
  end.
Proof.
  destruct e; cbn [dispatch];
    unfold handlePercentSubmit, handleSpeedPercent, handlePlayPause,
      handleTimeUpdate, handleLoadedMetadata, handleSeek, handleVolume,
      handleMute, handleFullscreen, handleFileChange, handleDarkMode,
      handleResetSpeed, handlePlaybackRate, handleHue, handleSaturation,
      handleBrightness.
  all: destruct p as [s [video |] d]; cbn.
  all: try (destruct files as [[| f fs] |]; cbn).
  all: split_conditionals; reflexivity.
Qed.

(** C10: a file change touches only the media source, [currentTime] and
    [isPlaying]: duration, volume, mute flag, rate, the three colour values,
    the theme and the fullscreen flag are as before, as are the element and
    the document; the stored duration stays the previous one through every
    later event but the metadata notification, which overwrites it with the
    element's. *)
Theorem handleFileChange_frame {File : Type}
    (createObjectURL : File -> string) (files : option (list File))
    (p : Player) :
  let p' := handleFileChange createObjectURL files p in
  (duration (state p') = duration (state p) /\
   volume (state p') = volume (state p) /\
   isMuted (state p') = isMuted (state p) /\
   playbackRate (state p') = playbackRate (state p) /\
   hue (state p') = hue (state p) /\
   saturation (state p') = saturation (state p) /\
   brightness (state p') = brightness (state p) /\
   darkMode (state p') = darkMode (state p) /\
   isFullscreen (state p') = isFullscreen (state p)) /\
  videoRef p' = videoRef p /\
  document p' = document p /\
  forall e : Event File,
    duration (state (step createObjectURL p' e)) =
    match e, videoRef p with
    | LoadedMetadata, Some video => Video.duration video
    | _, _ => duration (state p)
    end.
Proof.
  cbv zeta.
  assert (state (handleFileChange createObjectURL files p) = state p \/
          exists u, state (handleFileChange createObjectURL files p) =
                    setIsPlaying false
                      (setCurrentTime 0 (setVideoFile u (state p)))) as S.
  { unfold handleFileChange. destruct files as [[| f fs] |];
      [left | right; exists (createObjectURL f) | left]; reflexivity. }
  assert (videoRef (handleFileChange createObjectURL files p) = videoRef p)
    as V.
  { unfold handleFileChange. destruct files as [[| f fs] |]; reflexivity. }
  assert (document (handleFileChange createObjectURL files p) = document p)
    as D.
  { unfold handleFileChange. destruct files as [[| f fs] |]; reflexivity. }
  split; [| split; [exact V | split; [exact D |]]].
  - destruct S as [-> | [u ->]]; repeat split.
  - intros e. rewrite state_step, dispatch_duration, V.
    destruct S as [-> | [u ->]]; reflexivity.
Qed.

(** ** Guards on the element *)

(** C5, as stated, fails: with no element behind the ref, [handleVolume]
    and [handlePlaybackRate] still change the session state. *)
Lemma absent_video_not_noop :
  videoRef unmountedPlayer = None /\
  state (handleVolume (1 # 2) unmountedPlayer) <> state unmountedPlayer /\
  state (handlePlaybackRate 2 unmountedPlayer) <> state unmountedPlayer.
Proof.
  split; [reflexivity | split]; intros H.
  - apply (f_equal volume) in H. cbv in H. discriminate H.
  - apply (f_equal playbackRate) in H. cbv in H. discriminate H.
Qed.

(** C5, amended: with no element behind the ref, [handlePlayPause],
    [handleMute], [handleFullscreen], [handleSeek], [handleSpeedPercent]
    (also through the manual form) and the two notification handlers leave
    the whole component unchanged; [handleVolume] and [handlePlaybackRate]
    skip only the command to the element: the first still stores [volume]
    and [isMuted], the second still stores [playbackRate], and they change
    nothing else. *)
Theorem absent_video_effects (p : Player) :
  videoRef p = None ->
  handlePlayPause p = p /\
  handleMute p = p /\
  handleFullscreen p = p /\
  (forall v, handleSeek v p = p) /\
  (forall percent, handleSpeedPercent percent p = p) /\
  (forall val, handlePercentSubmit val p = p) /\
  handleTimeUpdate p = p /\
  handleLoadedMetadata p = p /\
  (forall v,
      handleVolume v p =
      update (fun s => setIsMuted (Qeq_bool v 0) (setVolume v s)) p) /\
  (forall r, handlePlaybackRate r p = update (setPlaybackRate r) p).
Proof.
  intros Hv.
  assert (forall percent, handleSpeedPercent percent p = p) as J
    by (intros; unfold handleSpeedPercent; rewrite Hv; reflexivity).
  unfold handlePlayPause, handleMute, handleFullscreen, handleSeek,
    handleTimeUpdate, handleLoadedMetadata, handleVolume, handlePlaybackRate.
  cbn [update videoRef]. rewrite Hv.
  repeat split; try exact J.
  intros [v |]; unfold handlePercentSubmit; [| reflexivity].
  destruct (negb (strictEq v 0)); [apply J | reflexivity].
Qed.

Lemma absent_video_effects_witness :
  handlePlayPause unmountedPlayer = unmountedPlayer /\
  handleSeek 3 unmountedPlayer = unmountedPlayer /\
  volume (state (handleVolume (1 # 2) unmountedPlayer)) = 1 # 2.
Proof.
  destruct (absent_video_effects unmountedPlayer eq_refl)
    as [A [_ [_ [B [_ [_ [_ [_ [C _]]]]]]]]].
  split; [exact A | split; [apply B |]].
  rewrite C. reflexivity.
Defined.

(** ** Playback rate *)

Lemma state_handlePlaybackRate (r : number) (p : Player) :
  state (handlePlaybackRate r p) = setPlaybackRate r (state p).
Proof.
  unfold handlePlaybackRate. destruct p as [s [video |] d]; reflexivity.
Qed.

(** C3, as stated, fails: a requested rate of 3 is stored as 3, not as the
    upper bound 2, and a requested rate of 1/10 is stored as 1/10, not as
    the lower bound 1/4. *)
Lemma handlePlaybackRate_not_clamped :
  (2 < 3 /\
   ~ playbackRate (state (handlePlaybackRate 3 samplePlayer)) == 2) /\
  (1 # 10 < 1 # 4 /\
   ~ playbackRate (state (handlePlaybackRate (1 # 10) samplePlayer))
     == 1 # 4).
Proof.
  repeat split; try reflexivity; intros H; discriminate H.
Qed.

(** C3, amended: for every requested rate [r], inside or outside
    [0.25, 2.0], [handlePlaybackRate] stores [r] itself and, when the
    element is present, sets the element's rate to [r]; the reset button
    stores 1. *)
Theorem handlePlaybackRate_stores_request (r : number) (p : Player) :
  playbackRate (state (handlePlaybackRate r p)) = r /\
  option_map Video.playbackRate (videoRef (handlePlaybackRate r p)) =
    option_map (fun _ => r) (videoRef p) /\
  playbackRate (state (handleResetSpeed p)) = 1.
Proof.
  unfold handleResetSpeed. rewrite !state_handlePlaybackRate.
  split; [reflexivity | split; [| reflexivity]].
  unfold handlePlaybackRate. destruct p as [s [video |] d]; reflexivity.
Qed.

(** ** Runs of events *)

(** The clamp of [handleSpeedPercent] keeps the position inside the
    mirrored duration. *)
Lemma handleSpeedPercent_transportInv (percent : number) (p : Player) :
  transportInv (state p) ->
  transportInv (state (handleSpeedPercent percent p)).
Proof.
  intros [[T0 T1] R]. unfold handleSpeedPercent.
  destruct (videoRef p) as [video |]; [| split; [split |]; assumption].
  destruct (falsy (duration (state p))); [split; [split |]; assumption |].
  split; [| exact R].
  cbn [state update setCurrentTime currentTime duration].
  set (d := duration (state p)) in *.
  set (x := Video.currentTime video + d * (percent / 100)).
  unfold gtb, within.
  destruct (ltb x 0) eqn:A.
  - destruct (ltb d 0) eqn:B.
    + split; [lra | apply Qle_refl].
    + apply ltb_false in B. split; [apply Qle_refl | exact B].
  - apply ltb_false in A. destruct (ltb d x) eqn:B.
    + split; [lra | apply Qle_refl].
    + apply ltb_false in B. split; assumption.
Qed.

Lemma dispatch_transportInv {File : Type} (createObjectURL : File -> string)
    (p : Player) (e : Event File) :
  transportInv (state p) -> transportOk p e ->
  transportInv (state (dispatch createObjectURL e p)).
Proof.
  intros I O.
  destruct e; cbn [dispatch];
    try (apply handleSpeedPercent_transportInv; exact I).
  all: try (unfold handlePercentSubmit; split_conditionals;
            [apply handleSpeedPercent_transportInv | |]; exact I).
  all: destruct I as [[T0 T1] [R0 R1]].
  all: unfold transportOk, handlePlayPause, handleTimeUpdate,
         handleLoadedMetadata, handleSeek, handleVolume, handleMute,
         handleFullscreen, handleFileChange, handleDarkMode,
         handleResetSpeed, handlePlaybackRate, handleHue, handleSaturation,
         handleBrightness in *.
  all: destruct p as [s [video |] d]; cbn in *.
  all: try (destruct files as [[| f fs] |]; cbn).
  all: split_conditionals; cbn.
  all: unfold transportInv, within in *; cbn.
  all: try (repeat split; first [assumption | apply O | lra]).
Qed.

(** [transportInv] holds initially. *)
Lemma initialSession_transportInv : transportInv initialSession.
Proof. unfold transportInv, within, Qle; cbn; lia. Qed.

(** C2, as stated, fails: from a state that satisfies the invariant, a seek
    to 100 in a 60 s video is stored as 100, and a requested rate of 3 is
    stored as 3. *)
Lemma transportInv_broken_by_unbounded_input :
  transportInv (state samplePlayer) /\
  ~ within 0 (duration (state (handleSeek 100 samplePlayer)))
      (currentTime (state (handleSeek 100 samplePlayer))) /\
  ~ within (1 # 4) 2
      (playbackRate (state (handlePlaybackRate 3 samplePlayer))).
Proof.
  split; [| split].
  - unfold transportInv, within, Qle; cbn; lia.
  - intros [_ H]. revert H. unfold Qle; cbn; lia.
  - intros [_ H]. revert H. unfold Qle; cbn; lia.
Qed.

(** C2, amended: [handleSeek] and [handlePlaybackRate] store their input as
    it is, without clamping; the invariant ([currentTime] within
    [0, duration], [playbackRate] within [0.25, 2.0]) is kept along every
    sequence of events in which each seek value lies within the seek
    slider's bounds [0, duration], each rate value within the speed slider's
    bounds [0.25, 2.0], each progress notification reports a position within
    [0, duration] and each metadata notification a length not below the
    mirrored position. *)
Theorem run_preserves_transportInv {File : Type}
    (createObjectURL : File -> string) (es : list (Event File))
    (p : Player) :
  transportInv (state p) ->
  allowed createObjectURL transportOk p es ->
  transportInv (state (run createObjectURL p es)) /\
  (forall v, videoRef p <> None ->
             currentTime (state (handleSeek v p)) = v) /\
  (forall r, playbackRate (state (handlePlaybackRate r p)) = r).
Proof.
  intros I A. split; [| split].
  - revert p I A. induction es as [| e es IH]; intros p I A.
    + exact I.
    + destruct A as [O A]. cbn [run fold_left].
      apply IH; [| exact A].
      rewrite state_step. apply dispatch_transportInv; assumption.
  - intros v Hv. unfold handleSeek.
    destruct (videoRef p); [reflexivity | contradiction].
  - intros r. rewrite state_handlePlaybackRate. reflexivity.
Qed.

Lemma run_preserves_transportInv_witness :
  transportInv
    (state (run sampleURL samplePlayer
              [Seek 30; RateChange (3 # 2); JumpButton 15; TimeUpdate;
               FileChange (Some ["b"%string]); LoadedMetadata])).
Proof.
  apply (run_preserves_transportInv sampleURL
           [Seek 30; RateChange (3 # 2); JumpButton 15; TimeUpdate;
            FileChange (Some ["b"%string]); LoadedMetadata] samplePlayer).
  - unfold transportInv, within, Qle; cbn; lia.
  - cbn. unfold within, Qle; cbn. repeat split; lia.
Defined.

(** ** Colour controls *)

Lemma dispatch_filterInv {File : Type} (createObjectURL : File -> string)
    (p : Player) (e : Event File) :
  filterInv (state p) -> filterOk e ->
  filterInv (state (dispatch createObjectURL e p)).
Proof.
  intros I O.
  assert (forall percent, filterInv (state (handleSpeedPercent percent p)))
    as J.
  { intros percent. unfold handleSpeedPercent.
    split_conditionals; exact I. }
  destruct e; cbn [dispatch]; try apply J.
  all: try (unfold handlePercentSubmit; split_conditionals;
            [apply J | |]; exact I).
  all: destruct I as [H [S B]].
  all: unfold filterOk, handlePlayPause, handleTimeUpdate,
         handleLoadedMetadata, handleSeek, handleVolume, handleMute,
         handleFullscreen, handleFileChange, handleDarkMode,
         handleResetSpeed, handlePlaybackRate, handleHue, handleSaturation,
         handleBrightness in *.
  all: destruct p as [s [video |] d]; cbn in *.
  all: try (destruct files as [[| f fs] |]; cbn).
  all: split_conditionals; cbn.
  all: unfold filterInv; cbn.
  all: repeat split; first [apply H | apply S | apply B | apply O].
Qed.

(** [filterInv] holds initially. *)
Lemma initialSession_filterInv : filterInv initialSession.
Proof. unfold filterInv, within, Qle; cbn; lia. Qed.

(** C8, as stated, fails: a hue input of 250 is stored as 250, outside
    [-180, 180]; likewise a saturation of 300 and a brightness of 10. *)
Lemma handleHue_stores_out_of_range :
  filterInv (state samplePlayer) /\
  hue (state (handleHue 250 samplePlayer)) = 250 /\
  ~ within (-180) 180 (hue (state (handleHue 250 samplePlayer))) /\
  ~ within 0 200 (saturation (state (handleSaturation 300 samplePlayer))) /\
  ~ within 50 200 (brightness (state (handleBrightness 10 samplePlayer))).
Proof.
  split; [| split; [reflexivity | split; [| split]]].
  - unfold filterInv, within, Qle; cbn; lia.
  - intros [_ H]. revert H. unfold Qle; cbn; lia.
  - intros [_ H]. revert H. unfold Qle; cbn; lia.
  - intros [H _]. revert H. unfold Qle; cbn; lia.
Qed.

(** C8, amended: [handleHue], [handleSaturation] and [handleBrightness]
    store their input as it is, for every input, changing nothing else;
    the declared ranges (hue [-180, 180], saturation [0, 200], brightness
    [50, 200]) are kept along every sequence of events in which each colour
    value lies within its slider's [min] and [max]. *)
Theorem run_preserves_filterInv {File : Type}
    (createObjectURL : File -> string) (es : list (Event File))
    (p : Player) :
  filterInv (state p) ->
  allowed createObjectURL (fun _ => filterOk) p es ->
  filterInv (state (run createObjectURL p es)) /\
  (forall v, handleHue v p = update (setHue v) p /\
             hue (state (handleHue v p)) = v) /\
  (forall v, handleSaturation v p = update (setSaturation v) p /\
             saturation (state (handleSaturation v p)) = v) /\
  (forall v, handleBrightness v p = update (setBrightness v) p /\
             brightness (state (handleBrightness v p)) = v).
Proof.
  intros I A. split; [| repeat split].
  revert p I A. induction es as [| e es IH]; intros p I A.
  - exact I.
  - destruct A as [O A]. cbn [run fold_left].
    apply IH; [| exact A].
    rewrite state_step. apply dispatch_filterInv; assumption.
Qed.

Lemma run_preserves_filterInv_witness :
  filterInv
    (state (run sampleURL samplePlayer
              [HueChange (-180); SaturationChange 200; Seek 100;
               BrightnessChange 50; RateChange 3; HueChange 90])).
Proof.
  apply (run_preserves_filterInv sampleURL
           [HueChange (-180); SaturationChange 200; Seek 100;
            BrightnessChange 50; RateChange 3; HueChange 90] samplePlayer).
  - unfold filterInv, within, Qle; cbn; lia.
  - cbn. unfold within, Qle; cbn. repeat split; lia.
Defined.

(** * Further properties of the component *)

(** ** More on [formatTime] *)

(** The floor is the only integer within one below. *)
Lemma Qfloor_unique (x : number) (m : Z) :
  inject_Z m <= x -> x < inject_Z (m + 1) -> Qfloor x = m.
Proof.
  intros L U.
  assert (m <= Qfloor x)%Z as A.
  { rewrite <- (Qfloor_Z m). apply Qfloor_resp_le. exact L. }
  assert (Qfloor x < m + 1)%Z as B.
  { rewrite Zlt_Qlt. eapply Qle_lt_trans; [apply Qfloor_le | exact U]. }
  lia.
Qed.

Lemma Qfloor_bounds (x : number) :
  inject_Z (Qfloor x) <= x /\ x < inject_Z (Qfloor x) + 1.
Proof.
  split; [apply Qfloor_le |].
  pose proof (Qlt_floor x) as H. rewrite inject_Z_plus in H. exact H.
Qed.

(** Flooring commutes with the division by sixty. *)
Lemma Qfloor_div60 (s : number) : Qfloor (s / 60) = (Qfloor s / 60)%Z.
Proof.
  destruct (Qfloor_bounds (s / 60)) as [L U].
  destruct (Qfloor_bounds s) as [L' U'].
  generalize dependent (Qfloor (s / 60)). intros k L U.
  assert (s == 60 * (s / 60)) as E by field.
  assert (60 * k <= Qfloor s)%Z as A.
  { rewrite <- (Qfloor_Z (60 * k)). apply Qfloor_resp_le.
    rewrite inject_Z_mult. change (inject_Z 60) with 60. lra. }
  assert (Qfloor s < 60 * k + 60)%Z as B.
  { rewrite Zlt_Qlt, inject_Z_plus, inject_Z_mult.
    change (inject_Z 60) with 60. lra. }
  apply (Z.div_unique _ _ _ (Qfloor s - 60 * k)); lia.
Qed.

(** The floor of the remainder is the remainder of the floor. *)
Lemma Qfloor_Qmod60 (s : number) :
  Qfloor (Qmod s 60) = (Qfloor s mod 60)%Z.
Proof.
  unfold Qmod. rewrite Z.mod_eq by lia. rewrite <- Qfloor_div60.
  destruct (Qfloor_bounds s) as [L U].
  apply Qfloor_unique.
  - unfold Z.sub. rewrite inject_Z_plus, inject_Z_opp, inject_Z_mult.
    change (inject_Z 60) with 60. lra.
  - unfold Z.sub. rewrite !inject_Z_plus, inject_Z_opp, inject_Z_mult.
    change (inject_Z 60) with 60. change (inject_Z 1) with 1. lra.
Qed.

(** The two fields of the timestamp, from the whole seconds. *)
Lemma formatTime_fields (s : number) :
  0 <= s ->
  formatTime s =
  (pad2 (Qfloor s / 60) ++ ":" ++ pad2 (Qfloor s mod 60))%string.
Proof.
  intros H. unfold formatTime, Math_floor.
  rewrite (rem_nonneg_dividend s H).
  rewrite !padStart_pad2.
  - rewrite Qfloor_div60, Qfloor_Qmod60. reflexivity.
  - apply Qfloor_nonneg, Qmod60_nonneg.
  - apply Qfloor_nonneg, div60_nonneg, H.
Qed.



Lemma length_append (a b : string) :
  String.length (a ++ b) = (String.length a + String.length b)%nat.
Proof. induction a as [| c a IH]; cbn; [reflexivity | now rewrite IH]. Qed.

Lemma pad2_length_small (n : Z) :
  (0 <= n < 100)%Z -> String.length (pad2 n) = 2%nat.
Proof.
  intros [L U]. destruct n as [| q | q]; [reflexivity | | lia].
  do 7 (try destruct q as [q | q |]); try reflexivity; lia.
Qed.

Lemma pad2_length_large (n : Z) :
  (100 <= n)%Z -> (3 <= String.length (pad2 n))%nat.
Proof.
  intros H. unfold pad2.
  destruct (Z.ltb_spec n 10) as [L | L]; [lia |].
  destruct n as [| q | q]; try lia.
  unfold toString; simpl.
  pose proof (Unsigned.of_to q) as E.
  destruct (Pos.to_uint q) as [| u | u | u | u | u | u | u | u | u | u ].
  all: try (destruct u as [| w | w | w | w | w | w | w | w | w | w ]).
  all: try (destruct w; simpl in * ).
  all: try (injection E; lia); try discriminate; try lia.
Qed.

Lemma Qfloor_lt_iff (s : number) (z : Z) :
  (Qfloor s < z)%Z <-> s < inject_Z z.
Proof.
  destruct (Qfloor_bounds s) as [L U]. split; intros H.
  - assert (Qfloor s + 1 <= z)%Z as A by lia.
    rewrite Zle_Qle, inject_Z_plus in A. change (inject_Z 1) with 1 in A.
    lra.
  - rewrite Zlt_Qlt. lra.
Qed.

(** X2: below 100 minutes the timestamp is exactly five characters long;
    from 100 minutes on the minutes field grows and the timestamp is at
    least six characters long. *)
Theorem formatTime_width (s : number) :
  0 <= s ->
  (s < 6000 -> String.length (formatTime s) = 5%nat) /\
  (6000 <= s -> (6 <= String.length (formatTime s))%nat).
Proof.
  intros H. rewrite (formatTime_fields s H), !length_append.
  pose proof (Qfloor_nonneg s H) as N.
  assert (String.length (pad2 (Qfloor s mod 60)) = 2%nat) as S.
  { apply pad2_length_small.
    pose proof (Z.mod_pos_bound (Qfloor s) 60). lia. }
  rewrite S. cbn [String.length]. split; intros B.
  - rewrite pad2_length_small; [reflexivity |].
    apply (Qfloor_lt_iff s 6000) in B.
    split; [apply Z.div_pos; lia | apply Z.div_lt_upper_bound; lia].
  - assert (~ (Qfloor s < 6000)%Z) as G
      by (rewrite (Qfloor_lt_iff s 6000); change (inject_Z 6000) with 6000;
          lra).
    assert (100 <= Qfloor s / 60)%Z as M
      by (apply Z.div_le_lower_bound; lia).
    pose proof (pad2_length_large _ M). lia.
Qed.

Lemma formatTime_width_witness :
  String.length (formatTime 125) = 5%nat /\
  (6 <= String.length (formatTime 6000))%nat.
Proof.
  assert (0 <= 125) as H by discriminate.
  assert (0 <= 6000) as H' by discriminate.
  split.
  - apply (proj1 (formatTime_width 125 H)). reflexivity.
  - apply (proj2 (formatTime_width 6000 H')). discriminate.
Defined.

(** Reading back what [toString] printed. *)
Lemma toString_parse (n : Z) :
  NilZero.int_of_string (toString n) = Some (Z.to_int n).
Proof.
  unfold toString. apply NilZero.isi.
  - destruct n as [| q | q]; cbn; try discriminate.
    intros E. injection E as E. exact (Unsigned.to_uint_nonnil q E).
  - destruct n as [| q | q]; cbn; try discriminate.
    intros E. injection E as E. exact (Unsigned.to_uint_nonnil q E).
Qed.

Lemma toString_inj (n m : Z) : toString n = toString m -> n = m.
Proof.
  intros E. apply (f_equal NilZero.int_of_string) in E.
  rewrite !toString_parse in E. injection E as E.
  apply DecimalZ.to_int_inj. exact E.
Qed.

Lemma digit_inj (n m : Z) :
  (0 <= n < 10)%Z -> (0 <= m < 10)%Z -> digit n = digit m -> n = m.
Proof.
  intros Hn Hm E. unfold digit in E.
  apply (f_equal nat_of_ascii) in E.
  rewrite !nat_ascii_embedding in E by lia. lia.
Qed.

Lemma pad2_not_toString (n m : Z) :
  (0 <= n < 10)%Z -> (10 <= m)%Z ->
  String "0" (String (digit n) EmptyString) <> toString m.
Proof.
  intros Hn Hm E. apply (f_equal NilZero.int_of_string) in E.
  rewrite toString_parse in E.
  assert (exists d, NilZero.int_of_string
                      (String "0" (String (digit n) EmptyString)) = Some d /\
                    (Z.of_int d < 10)%Z) as [d [P B]].
  { destruct Hn as [L U]. destruct n as [| q | q]; [| | lia].
    - eexists; split; [reflexivity | cbn; lia].
    - do 4 (try destruct q as [q | q |]); try lia;
        (eexists; split; [reflexivity | cbn; lia]). }
  rewrite P in E. injection E as E. subst d.
  rewrite DecimalZ.of_to in B. lia.
Qed.

(** Distinct non-negative values have distinct two-digit fields. *)
Lemma pad2_inj (n m : Z) :
  (0 <= n)%Z -> (0 <= m)%Z -> pad2 n = pad2 m -> n = m.
Proof.
  intros Hn Hm. unfold pad2.
  destruct (Z.ltb_spec n 10) as [A | A], (Z.ltb_spec m 10) as [B | B];
    intros E.
  - injection E as E. apply digit_inj; [lia | lia | exact E].
  - exfalso. apply (pad2_not_toString n m); [lia | lia | exact E].
  - exfalso. apply (pad2_not_toString m n); [lia | lia |]. symmetry. exact E.
  - apply toString_inj. exact E.
Qed.

(** Two concatenations with suffixes of one length agree part by part. *)
Lemma append_inj_suffix (a a' b b' : string) :
  String.length b = String.length b' ->
  (a ++ b)%string = (a' ++ b')%string -> a = a' /\ b = b'.
Proof.
  intros L. revert a'. induction a as [| c a IH]; intros [| c' a'] E; cbn in E.
  - split; [reflexivity | exact E].
  - apply (f_equal String.length) in E. cbn in E.
    rewrite length_append in E. lia.
  - apply (f_equal String.length) in E. cbn in E.
    rewrite length_append in E. lia.
  - injection E as -> E. destruct (IH a' E) as [-> ->]. split; reflexivity.
Qed.

(** X3: two non-negative times are shown alike exactly when they agree on
    their whole seconds. *)
Theorem formatTime_same_display (s t : number) :
  0 <= s -> 0 <= t ->
  (formatTime s = formatTime t <-> Qfloor s = Qfloor t).
Proof.
  intros Hs Ht. rewrite (formatTime_fields s Hs), (formatTime_fields t Ht).
  split; [| intros ->; reflexivity].
  intros E.
  pose proof (Qfloor_nonneg s Hs) as Ns.
  pose proof (Qfloor_nonneg t Ht) as Nt.
  pose proof (Z.mod_pos_bound (Qfloor s) 60) as Bs.
  pose proof (Z.mod_pos_bound (Qfloor t) 60) as Bt.
  apply append_inj_suffix in E.
  - destruct E as [M S]. injection S as S.
    apply pad2_inj in M; [| apply Z.div_pos; lia | apply Z.div_pos; lia].
    apply pad2_inj in S; [| lia | lia].
    rewrite (Z.div_mod (Qfloor s) 60), (Z.div_mod (Qfloor t) 60) by lia.
    rewrite M, S. reflexivity.
  - cbn [append String.length].
    rewrite !pad2_length_small by lia. reflexivity.
Qed.

Lemma formatTime_same_display_witness :
  formatTime (7 # 2) = formatTime (10 # 3).
Proof.
  assert (0 <= 7 # 2) as H by discriminate.
  assert (0 <= 10 # 3) as H' by discriminate.
  apply (proj2 (formatTime_same_display (7 # 2) (10 # 3) H H')).
  reflexivity.
Defined.




(** ** The element as source of the play state *)

Lemma Video_pause_play (v : Video.t) :
  Video.paused v = true -> Video.pause (Video.play v) = v.
Proof. destruct v; cbn; intros ->; reflexivity. Qed.

Lemma Video_play_pause (v : Video.t) :
  Video.paused v = false -> Video.play (Video.pause v) = v.
Proof. destruct v; cbn; intros ->; reflexivity. Qed.

(** X5: with the element present, [handlePlayPause] toggles on the
    element's [paused], not on the stored [isPlaying]: the element's flag is
    negated, [isPlaying] becomes the opposite of the new flag, and a second
    call gives the element back as it was. *)
Theorem handlePlayPause_follows_element (p : Player) (video : Video.t) :
  videoRef p = Some video ->
  let p' := handlePlayPause p in
  option_map Video.paused (videoRef p') = Some (negb (Video.paused video)) /\
  isPlaying (state p') = Video.paused video /\
  videoRef (handlePlayPause p') = Some video /\
  isPlaying (state (handlePlayPause p')) = negb (Video.paused video).
Proof.
  intros Hv. cbv zeta. unfold handlePlayPause. rewrite Hv.
  destruct (Video.paused video) eqn:P; cbn; rewrite ?P; cbn.
  - rewrite Video_pause_play by exact P. repeat split.
  - rewrite Video_play_pause by exact P. repeat split.
Qed.

Lemma handlePlayPause_follows_element_witness :
  isPlaying (state (handlePlayPause samplePlayer)) = true /\
  videoRef (handlePlayPause (handlePlayPause samplePlayer)) =
    Some sampleVideo.
Proof.
  destruct (handlePlayPause_follows_element samplePlayer sampleVideo eq_refl)
    as [_ [A [B _]]].
  split; [exact A | exact B].
Defined.

(** ** Mute flag *)

(** X6: with the element present, [handleMute] negates the stored
    [isMuted] and writes that value to the element, so the two agree after
    the call; the element's volume is untouched, and when the element's
    flag differed from the stored one it keeps its value. *)
Theorem handleMute_resyncs (p : Player) (video : Video.t) :
  videoRef p = Some video ->
  let p' := handleMute p in
  isMuted (state p') = negb (isMuted (state p)) /\
  option_map Video.muted (videoRef p') = Some (isMuted (state p')) /\
  option_map Video.volume (videoRef p') = Some (Video.volume video) /\
  (Video.muted video <> isMuted (state p) ->
   option_map Video.muted (videoRef p') = Some (Video.muted video)).
Proof.
  intros Hv. cbv zeta. unfold handleMute. rewrite Hv. cbn.
  repeat split. intros D. f_equal.
  destruct (Video.muted video), (isMuted (state p)); cbn; congruence.
Qed.

Lemma handleMute_resyncs_witness :
  option_map Video.muted (videoRef (handleMute samplePlayer)) = Some true.
Proof.
  destruct (handleMute_resyncs samplePlayer sampleVideo eq_refl)
    as [_ [A _]].
  exact A.
Defined.

(** X7: [handleVolume] never writes the element's mute flag: on a muted
    element a non-zero volume makes the stored [isMuted] false while the
    element stays muted, at the new volume. *)
Theorem handleVolume_keeps_element_muted (v : number) (p : Player)
    (video : Video.t) :
  videoRef p = Some video ->
  Video.muted video = true ->
  ~ v == 0 ->
  let p' := handleVolume v p in
  isMuted (state p') = false /\
  option_map Video.muted (videoRef p') = Some true /\
  option_map Video.volume (videoRef p') = Some v.
Proof.
  intros Hv M N. cbv zeta. unfold handleVolume. rewrite Hv. cbn.
  rewrite M. repeat split.
  unfold strictEq. apply not_true_iff_false. rewrite Qeq_bool_iff. exact N.
Qed.

Lemma handleVolume_keeps_element_muted_witness :
  isMuted (state (handleVolume (1 # 2) (handleMute samplePlayer))) = false /\
  option_map Video.muted
    (videoRef (handleVolume (1 # 2) (handleMute samplePlayer))) = Some true.
Proof.
  assert (~ 1 # 2 == 0) as N by (intros H; discriminate H).
  destruct (handleVolume_keeps_element_muted (1 # 2)
              (handleMute samplePlayer) (Video.set_muted true sampleVideo)
              eq_refl eq_refl N) as [A [B _]].
  split; [exact A | exact B].
Defined.

(** ** Fullscreen *)

(** X8: with the element present, [handleFullscreen] negates the stored
    [isFullscreen] whatever the platform offers, and a second call restores
    it; the document follows the flag when both fullscreen methods exist,
    and does not change on entering when the element lacks
    [requestFullscreen]. *)
Theorem handleFullscreen_flag (p : Player) (video : Video.t) :
  videoRef p = Some video ->
  let p' := handleFullscreen p in
  isFullscreen (state p') = negb (isFullscreen (state p)) /\
  isFullscreen (state (handleFullscreen p')) = isFullscreen (state p) /\
  (Video.requestFullscreen video = true ->
   Document.exitFullscreen (document p) = true ->
   Document.fullscreen (document p') = isFullscreen (state p')) /\
  (Video.requestFullscreen video = false ->
   isFullscreen (state p) = false ->
   Document.fullscreen (document p') = Document.fullscreen (document p)).
Proof.
  intros Hv. cbv zeta. unfold handleFullscreen. rewrite Hv.
  destruct (isFullscreen (state p)) eqn:F; cbn;
    destruct (Video.requestFullscreen video),
             (Document.exitFullscreen (document p));
    cbn; rewrite ?Hv, ?F; cbn; repeat split; congruence.
Qed.

Lemma handleFullscreen_flag_witness :
  isFullscreen (state (handleFullscreen samplePlayer)) = true /\
  Document.fullscreen (document (handleFullscreen samplePlayer)) = true.
Proof.
  destruct (handleFullscreen_flag samplePlayer sampleVideo eq_refl)
    as [A [_ [B _]]].
  split; [exact A | exact (B eq_refl eq_refl)].
Defined.

(** ** The mirror along runs *)

Lemma Video_set_playbackRate_same (v : Video.t) :
  Video.set_playbackRate (Video.playbackRate v) v = v.
Proof. destruct v; reflexivity. Qed.

Lemma playbackRateEffect_handlePlaybackRate (r : number) (p : Player) :
  playbackRateEffect (handlePlaybackRate r p) = handlePlaybackRate r p.
Proof.
  unfold playbackRateEffect, handlePlaybackRate.
  destruct p as [s [video |] d]; reflexivity.
Qed.

Lemma Qeq_bool_same (a : number) : Qeq_bool a a = true.
Proof. apply Qeq_bool_iff. reflexivity. Qed.

(** Only the speed slider and its reset write the stored rate. *)
Lemma dispatch_playbackRate {File : Type} (createObjectURL : File -> string)
    (e : Event File) (p : Player) :
  playbackRate (state (dispatch createObjectURL e p)) =
  match e with
  | RateChange v => v
  | ResetSpeed => 1
  | _ => playbackRate (state p)
  end.
Proof.
  destruct e; cbn [dispatch];
    unfold handlePercentSubmit, handleSpeedPercent, handlePlayPause,
      handleTimeUpdate, handleLoadedMetadata, handleSeek, handleVolume,
      handleMute, handleFullscreen, handleFileChange, handleDarkMode,
      handleResetSpeed, handlePlaybackRate, handleHue, handleSaturation,
      handleBrightness.
  all: destruct p as [s [video |] d]; cbn.
  all: try (destruct files as [[| f fs] |]; cbn).
  all: split_conditionals; reflexivity.
Qed.

Lemma step_dispatch {File : Type} (createObjectURL : File -> string)
    (p : Player) (e : Event File) :
  step createObjectURL p e = dispatch createObjectURL e p.
Proof.
  unfold step.
  destruct (Qeq_bool _ _) eqn:Q; [reflexivity |].
  destruct e; cbn [dispatch];
    try (rewrite dispatch_playbackRate, Qeq_bool_same in Q; discriminate Q).
  - apply playbackRateEffect_handlePlaybackRate.
  - apply playbackRateEffect_handlePlaybackRate.
Qed.

(** X9: the effect on [playbackRate] never changes what a handler left:
    an event followed by its render is the handler alone, because
    [handlePlaybackRate] has already written the element's rate; on its own
    the effect sets the element's rate to the stored one. *)
Theorem effect_is_redundant {File : Type} (createObjectURL : File -> string)
    (p : Player) (e : Event File) (r : number) :
  step createObjectURL p e = dispatch createObjectURL e p /\
  playbackRateEffect (handlePlaybackRate r p) = handlePlaybackRate r p /\
  option_map Video.playbackRate (videoRef (playbackRateEffect p)) =
    option_map (fun _ => playbackRate (state p)) (videoRef p).
Proof.
  split; [apply step_dispatch | split].
  - apply playbackRateEffect_handlePlaybackRate.
  - unfold playbackRateEffect. destruct p as [s [video |] d]; reflexivity.
Qed.

(** X10: when session and element agree, both notification handlers and
    the rate effect leave the component unchanged. *)
Theorem mirrored_is_fixed_point (p : Player) :
  mirrored p ->
  handleTimeUpdate p = p /\
  handleLoadedMetadata p = p /\
  playbackRateEffect p = p.
Proof.
  unfold mirrored, handleTimeUpdate, handleLoadedMetadata,
    playbackRateEffect.
  destruct p as [s [video |] d]; cbn; [| repeat split].
  intros [T [D [_ [_ [R _]]]]].
  destruct s, video; cbn in *; subst. repeat split.
Qed.

Lemma mirrored_is_fixed_point_witness :
  handleTimeUpdate samplePlayer = samplePlayer /\
  handleLoadedMetadata samplePlayer = samplePlayer.
Proof.
  assert (mirrored samplePlayer) as M by (cbv; repeat split).
  destruct (mirrored_is_fixed_point samplePlayer M) as [A [B _]].
  split; [exact A | exact B].
Defined.

(** Split on the condition of every [if] of the goal. *)
Ltac split_ifs :=
  repeat (match goal with
          | |- context [if ?b then _ else _] => destruct b eqn:?
          end; cbn).




(** ** Theme and colour controls *)

(** X12: the theme toggle is an involution on the whole component and
    commutes with every event: no handler reads or writes [darkMode]
    besides it. *)
Theorem handleDarkMode_independent {File : Type}
    (createObjectURL : File -> string) (e : Event File) (p : Player) :
  handleDarkMode (handleDarkMode p) = p /\
  darkMode (state (handleDarkMode p)) = negb (darkMode (state p)) /\
  step createObjectURL (handleDarkMode p) e =
    handleDarkMode (step createObjectURL p e).
Proof.
  split; [| split].
  - destruct p as [[] v d]. unfold handleDarkMode, update, setDarkMode; cbn.
    rewrite negb_involutive. reflexivity.
  - reflexivity.
  - rewrite !step_dispatch.
    destruct e as [| | | v | v | | | files | | pc | val | v | | v | v | v];
      cbn [dispatch];
      unfold handlePercentSubmit, handleSpeedPercent, handlePlayPause,
        handleTimeUpdate, handleLoadedMetadata, handleSeek, handleVolume,
        handleMute, handleFullscreen, handleFileChange, handleDarkMode,
        handleResetSpeed, handlePlaybackRate, handleHue, handleSaturation,
        handleBrightness.
    all: destruct p as [s [video |] d]; cbn.
    all: try (destruct files as [[| f fs] |]; cbn).
    all: try (destruct val as [v |]; cbn).
    all: split_ifs; reflexivity.
Qed.

(** X13: each colour control commutes with every event other than a change
    of its own slider, for which the last value wins. *)
Theorem colour_controls_independent {File : Type}
    (createObjectURL : File -> string) (e : Event File) (a : number)
    (p : Player) :
  match e with
  | HueChange v => handleHue a (handleHue v p) = handleHue a p
  | _ => step createObjectURL (handleHue a p) e =
         handleHue a (step createObjectURL p e)
  end /\
  match e with
  | SaturationChange v =>
      handleSaturation a (handleSaturation v p) = handleSaturation a p
  | _ => step createObjectURL (handleSaturation a p) e =
         handleSaturation a (step createObjectURL p e)
  end /\
  match e with
  | BrightnessChange v =>
      handleBrightness a (handleBrightness v p) = handleBrightness a p
  | _ => step createObjectURL (handleBrightness a p) e =
         handleBrightness a (step createObjectURL p e)
  end.
Proof.
  rewrite !step_dispatch.
  destruct e as [| | | v | v | | | files | | pc | val | v | | v | v | v];
    cbn [dispatch];
    unfold handlePercentSubmit, handleSpeedPercent, handlePlayPause,
      handleTimeUpdate, handleLoadedMetadata, handleSeek, handleVolume,
      handleMute, handleFullscreen, handleFileChange, handleDarkMode,
      handleResetSpeed, handlePlaybackRate, handleHue, handleSaturation,
      handleBrightness.
  all: destruct p as [s [video |] d]; cbn.
  all: try (destruct files as [[| f fs] |]; cbn).
  all: try (destruct val as [v |]; cbn).
  all: split_ifs; repeat split.
Qed.

(** ** Passive events *)



(** ** Jumps *)

(** The two comparisons of [handleSpeedPercent] are the clamp. *)
Lemma jump_target_clamp (x d : number) :
  (let y := if ltb x 0 then 0 else x in if gtb y d then d else y)
  == clamp x 0 d.
Proof.
  cbv zeta. unfold gtb.
  destruct (clamp_cases x 0 d) as [[G C] | [[G [L C]] | [G [L C]]]];
    rewrite C; clear C;
    destruct (Q.max_spec x 0) as [[M F] | [M F]];
    destruct (ltb x 0) eqn:A;
    try (apply ltb_true in A); try (apply ltb_false in A);
    try lra.
  all: destruct (ltb d _) eqn:B;
    try (apply ltb_true in B); try (apply ltb_false in B);
    try reflexivity; lra.
Qed.

(** The effective branch of [handleSpeedPercent]. *)
Lemma handleSpeedPercent_present (percent : number) (p : Player)
    (video : Video.t) :
  videoRef p = Some video ->
  ~ duration (state p) == 0 ->
  let d := duration (state p) in
  let x := Video.currentTime video + d * (percent / 100) in
  let y := if ltb x 0 then 0 else x in
  let z := if gtb y d then d else y in
  handleSpeedPercent percent p =
  update (setCurrentTime z) (withVideo (Video.set_currentTime z video) p).
Proof.
  intros Hv Hd. cbv zeta. unfold handleSpeedPercent. rewrite Hv.
  apply falsy_false in Hd. rewrite Hd. reflexivity.
Qed.

(** X15: with the element present and a positive duration, a jump lands
    within [0, duration] and writes the same position to the element; a
    jump of +100 % or more from a non-negative position lands on the
    duration, one of -100 % or less from a position within the duration
    lands on 0. *)
Theorem handleSpeedPercent_extremes (percent : number) (p : Player)
    (video : Video.t) :
  videoRef p = Some video ->
  0 < duration (state p) ->
  let p' := handleSpeedPercent percent p in
  within 0 (duration (state p)) (currentTime (state p')) /\
  option_map Video.currentTime (videoRef p') = Some (currentTime (state p')) /\
  (100 <= percent -> 0 <= Video.currentTime video ->
   currentTime (state p') == duration (state p)) /\
  (percent <= -100 -> Video.currentTime video <= duration (state p) ->
   currentTime (state p') == 0).
Proof.
  intros Hv Hd. cbv zeta.
  assert (~ duration (state p) == 0) as Hn by lra.
  rewrite (handleSpeedPercent_present percent p video Hv Hn).
  cbn [state update setCurrentTime currentTime videoRef withVideo
       option_map Video.set_currentTime Video.currentTime].
  set (d := duration (state p)) in *.
  set (t := Video.currentTime video).
  pose proof (jump_target_clamp (t + d * (percent / 100)) d) as J.
  cbv zeta in J.
  assert (t + d * (percent / 100) == t + d * percent * (1 # 100)) as E
    by field.
  generalize dependent (if gtb (if ltb (t + d * (percent / 100)) 0 then 0
                                else t + d * (percent / 100)) d
                        then d
                        else if ltb (t + d * (percent / 100)) 0 then 0
                             else t + d * (percent / 100)).
  intros z J.
  assert (0 <= d) as D0 by lra.
  pose proof (clamp_within (t + d * (percent / 100)) 0 d D0) as [W0 W1].
  split; [split; lra | split; [reflexivity | split]].
  - intros P T. rewrite J.
    destruct (clamp_cases (t + d * (percent / 100)) 0 d)
      as [[G C] | [[G [L C]] | [G [L C]]]]; rewrite C; try lra.
    + nra.
    + destruct (Q.max_spec (t + d * (percent / 100)) 0) as [[M F] | [M F]];
        nra.
  - intros P T. rewrite J.
    destruct (clamp_cases (t + d * (percent / 100)) 0 d)
      as [[G C] | [[G [L C]] | [G [L C]]]]; rewrite C; try lra.
    + destruct (Q.max_spec (t + d * (percent / 100)) 0) as [[M F] | [M F]];
        nra.
    + nra.
Qed.

Lemma clamp_monotone (x y lo hi : number) :
  x <= y -> clamp x lo hi <= clamp y lo hi.
Proof.
  intros H. unfold clamp.
  apply Q.min_le_compat_r. apply Q.max_le_compat_r. exact H.
Qed.

Lemma handleSpeedPercent_time (percent : number) (p : Player)
    (video : Video.t) :
  videoRef p = Some video ->
  ~ duration (state p) == 0 ->
  currentTime (state (handleSpeedPercent percent p)) ==
  clamp (Video.currentTime video + duration (state p) * (percent / 100))
        0 (duration (state p)).
Proof.
  intros Hv Hd.
  rewrite (handleSpeedPercent_present percent p video Hv Hd).
  cbn [state update setCurrentTime currentTime].
  apply jump_target_clamp.
Qed.

(** X16: with the element present and a positive duration, a larger
    percentage never lands earlier. *)
Theorem handleSpeedPercent_monotone (a b : number) (p : Player)
    (video : Video.t) :
  videoRef p = Some video ->
  0 < duration (state p) ->
  a <= b ->
  currentTime (state (handleSpeedPercent a p)) <=
  currentTime (state (handleSpeedPercent b p)).
Proof.
  intros Hv Hd H.
  assert (~ duration (state p) == 0) as Hn by lra.
  rewrite (handleSpeedPercent_time a p video Hv Hn),
          (handleSpeedPercent_time b p video Hv Hn).
  apply clamp_monotone.
  assert (a / 100 <= b / 100) as Q
    by (unfold Qdiv; apply Qmult_le_compat_r; [exact H | discriminate]).
  nra.
Qed.

Lemma handleSpeedPercent_monotone_witness :
  currentTime (state (handleSpeedPercent (-5) samplePlayer)) <=
  currentTime (state (handleSpeedPercent 15 samplePlayer)).
Proof.
  apply (handleSpeedPercent_monotone (-5) 15 samplePlayer sampleVideo).
  - reflexivity.
  - reflexivity.
  - discriminate.
Defined.

Lemma handleSpeedPercent_extremes_witness :
  currentTime (state (handleSpeedPercent 100 samplePlayer)) == 60 /\
  currentTime (state (handleSpeedPercent (-100) samplePlayer)) == 0.
Proof.
  assert (0 < duration (state samplePlayer)) as D by reflexivity.
  destruct (handleSpeedPercent_extremes 100 samplePlayer sampleVideo
              eq_refl D) as [_ [_ [A _]]].
  destruct (handleSpeedPercent_extremes (-100) samplePlayer sampleVideo
              eq_refl D) as [_ [_ [_ B]]].
  split; [apply A | apply B]; discriminate.
Defined.

(** X17: while the stored duration is zero (no metadata yet), every jump,
    from a button or from the form, leaves the component unchanged. *)
Theorem jump_without_duration (percent : number) (val : option number)
    (p : Player) :
  duration (state p) == 0 ->
  handleSpeedPercent percent p = p /\ handlePercentSubmit val p = p.
Proof.
  intros H.
  assert (forall pc, handleSpeedPercent pc p = p) as J.
  { intros pc. unfold handleSpeedPercent.
    destruct (videoRef p); [| reflexivity].
    apply Qeq_bool_iff in H. unfold falsy. rewrite H. reflexivity. }
  split; [apply J |].
  unfold handlePercentSubmit. destruct val as [v |]; [| reflexivity].
  destruct (negb (strictEq v 0)); [apply J | reflexivity].
Qed.

Lemma jump_without_duration_witness :
  handleSpeedPercent 15 (mkPlayer initialSession (Some sampleVideo)
                           sampleDocument) =
  mkPlayer initialSession (Some sampleVideo) sampleDocument.
Proof.
  assert (duration (state (mkPlayer initialSession (Some sampleVideo)
                             sampleDocument)) == 0) as H by reflexivity.
  exact (proj1 (jump_without_duration 15 None _ H)).
Defined.

(** X18: the manual form ignores an empty and a zero entry, whereas
    [handleSpeedPercent] called with zero would overwrite the stored
    position with the element's, clamped into [0, duration]. *)
Theorem percent_form_guard (v : number) (p : Player) (video : Video.t) :
  videoRef p = Some video ->
  ~ duration (state p) == 0 ->
  v == 0 ->
  handlePercentSubmit (Some v) p = p /\
  handlePercentSubmit None p = p /\
  currentTime (state (handleSpeedPercent v p)) ==
    clamp (Video.currentTime video) 0 (duration (state p)).
Proof.
  intros Hv Hd Z. split; [| split; [reflexivity |]].
  - unfold handlePercentSubmit, strictEq.
    apply Qeq_bool_iff in Z. rewrite Z. reflexivity.
  - rewrite (handleSpeedPercent_time v p video Hv Hd).
    assert (Video.currentTime video + duration (state p) * (v / 100) ==
            Video.currentTime video) as E by (rewrite Z; field).
    unfold clamp. rewrite E. reflexivity.
Qed.

Lemma percent_form_guard_witness :
  handlePercentSubmit (Some (0 # 7)) samplePlayer = samplePlayer.
Proof.
  assert (~ duration (state samplePlayer) == 0) as D
    by (intros H; discriminate H).
  assert (0 # 7 == 0) as Z by reflexivity.
  exact (proj1 (percent_form_guard (0 # 7) samplePlayer sampleVideo
                  eq_refl D Z)).
Defined.



(** ** The file picker *)

(** Only a file change that carries a file writes the stored source. *)
Lemma dispatch_videoFile {File : Type} (createObjectURL : File -> string)
    (e : Event File) (p : Player) :
  videoFile (state (dispatch createObjectURL e p)) =
  match e with
  | FileChange (Some (f :: _)) => Some (createObjectURL f)
  | _ => videoFile (state p)
  end.
Proof.
  destruct e as [| | | v | v | | | files | | pc | val | v | | v | v | v];
    cbn [dispatch];
    unfold handlePercentSubmit, handleSpeedPercent, handlePlayPause,
      handleTimeUpdate, handleLoadedMetadata, handleSeek, handleVolume,
      handleMute, handleFullscreen, handleFileChange, handleDarkMode,
      handleResetSpeed, handlePlaybackRate, handleHue, handleSaturation,
      handleBrightness.
  all: destruct p as [s [video |] d]; cbn.
  all: try (destruct files as [[| f fs] |]; cbn).
  all: try (destruct val as [v |]; cbn).
  all: split_ifs; reflexivity.
Qed.

Lemma picker_hidden (s : Session) (u : string) :
  videoFile s = Some u -> u <> EmptyString -> pickerRendered s = false.
Proof.
  intros E N. unfold pickerRendered. rewrite E.
  apply String.eqb_neq. exact N.
Qed.

(** A stored, non-empty source survives every rendered run. *)
Lemma run_keeps_videoFile {File : Type} (createObjectURL : File -> string)
    (es : list (Event File)) (p : Player) (u : string) :
  videoFile (state p) = Some u -> u <> EmptyString ->
  allowed createObjectURL pickerOk p es ->
  videoFile (state (run createObjectURL p es)) = Some u.
Proof.
  intros E N. revert p E. induction es as [| e es IH]; intros p E A.
  - exact E.
  - destruct A as [O A]. cbn [run fold_left]. apply IH; [| exact A].
    rewrite step_dispatch, dispatch_videoFile.
    destruct e; try exact E.
    cbn in O. rewrite (picker_hidden _ _ E N) in O. discriminate O.
Qed.

(** X20: the picker is rendered only while no source is stored, so once a
    file with a non-empty object URL has been picked, every sequence of
    events the rendered tree can dispatch leaves that source in place. *)
Theorem picker_loads_once {File : Type} (createObjectURL : File -> string)
    (f : File) (fs : list File) (es : list (Event File)) (p : Player) :
  createObjectURL f <> EmptyString ->
  allowed createObjectURL pickerOk p (FileChange (Some (f :: fs)) :: es) ->
  videoFile (state (run createObjectURL p (FileChange (Some (f :: fs)) :: es)))
  = Some (createObjectURL f).
Proof.
  intros N [_ A]. cbn [run fold_left].
  apply run_keeps_videoFile; [| exact N | exact A].
  rewrite step_dispatch, dispatch_videoFile. reflexivity.
Qed.

Lemma picker_loads_once_witness :
  videoFile
    (state (run sampleURL unmountedPlayer
              [FileChange (Some ["a"%string]); HueChange 20; PlayPause;
               Seek 3; DarkMode]))
  = Some "blob:a"%string.
Proof.
  apply (picker_loads_once sampleURL "a"%string []
           [HueChange 20; PlayPause; Seek 3; DarkMode] unmountedPlayer).
  - discriminate.
  - cbv. repeat split.
Defined.
